(** * redux-actionz: action creators and map-dispatched reducers

    A shallow embedding of [index.ts] (action, asyncAction, handle,
    handleActions, handleActionsAppend, createReducer, createReducerAppend)
    and the properties of its specification.

    Layout: the JavaScript notions the source relies on (callbacks that may
    have effects or throw, objects used as string-keyed tables, the [in]
    operator, [object-assign]), then the seven exported functions in source
    order, then the properties. *)

From stdpp Require Import gmap strings list fin_maps.
From Stdlib Require Import ZArith.

Set Default Proof Using "Type".

(** ** Callbacks: a state-and-exception monad

    Effects and payload reducers are caller-supplied functions.  An effect
    may be impure (the README's example draws a random id, the test suite's
    one bumps a counter) and any callback may throw.  A callback is therefore
    a function of the host program's mutable world [W], completing either
    normally with a value or abruptly with an exception. *)
Module Js.

Inductive completion (W A : Type) : Type :=
| Normal (a : A) (w : W)
| Throw (e : string) (w : W).
Arguments Normal {W A} a w.
Arguments Throw {W A} e w.

Definition JS (W A : Type) : Type := W → completion W A.

Definition ret {W A} (a : A) : JS W A := fun w => Normal a w.

Definition throw {W A} (e : string) : JS W A := fun w => Throw e w.

Definition bind {W A B} (m : JS W A) (k : A → JS W B) : JS W B :=
  fun w =>
    match m w with
    | Normal a w' => k a w'
    | Throw e w' => Throw e w'
    end.

(** ** Objects used as tables

    An object is given by its own enumerable string-keyed properties and by
    the properties it inherits through its prototype chain ([inherited] is
    the chain flattened; an object literal inherits the members of
    [Object.prototype]).  The own properties of one table have the same type
    [A], as the index signatures of [PayloadReducerMap] and
    [PartialPayloadReducerMap] declare.  An inherited member is not bound by
    that signature: it is a value of type [A] (in a table of handlers, a
    function, given by what it does when called as a handler) or a value of
    another kind (in a table of handlers, one that is no function and cannot
    be called: the accessor [__proto__] of [Object.prototype] yields the
    prototype, an object). *)
Inductive Member (A : Type) : Type :=
| Callable (a : A)
| NotCallable.
Arguments Callable {A} a.
Arguments NotCallable {A}.

Definition callable {A} (m : Member A) : option A :=
  match m with
  | Callable a => Some a
  | NotCallable => None
  end.

Record JsObject (A : Type) : Type := mkObject {
  own : gmap string A;
  inherited : gmap string (Member A)
}.
Arguments mkObject {A} own inherited.
Arguments own {A} _.
Arguments inherited {A} _.

(** [key in o]: true for own and for inherited properties alike, whatever
    their values. *)
Definition has_property {A} (key : string) (o : JsObject A) : bool :=
  bool_decide (is_Some (own o !! key))
  || bool_decide (is_Some (inherited o !! key)).

(** [o[key]], as far as it can be called: the own property if there is one,
    else the inherited member if it is a function; [None] stands for
    [undefined] and for an inherited value that is no function. *)
Definition get {A} (o : JsObject A) (key : string) : option A :=
  match own o !! key with
  | Some a => Some a
  | None => inherited o !! key ≫= callable
  end.

(** [Object.keys(o)]: the own enumerable property names. *)
Definition keys {A} (o : JsObject A) : gset string := dom (own o).

(** Modelled from the spec: [object-assign] is an npm dependency and not
    part of the repository's sources; the spec calls it an ordinary shallow
    merge in which later sources overwrite earlier ones.  It copies the own
    enumerable properties of every source into the target, left to right
    (for each key: [to[key] = from[key]]), and returns the target, whose
    prototype it leaves alone.  Every property is a data property here: the
    accessor [__proto__] of [Object.prototype], which an assignment to a key
    of that name would run, is not modelled. *)
Definition assign {A} (to fro : JsObject A) : JsObject A :=
  mkObject (own fro ∪ own to) (inherited to).

Definition objectAssign {A} (target : JsObject A) (sources : list (JsObject A))
  : JsObject A :=
  foldl assign target sources.

(** The members of [Object.prototype], seen at the property type of the
    table that inherits them.  The development never fixes them: every
    general statement holds whatever they are. *)
Class ObjectPrototype (A : Type) : Type :=
  Object_prototype : gmap string (Member A).

(** An object literal [{ k1: v1, ... }] and the empty one, [{}]. *)
Definition object_literal {A} `{ObjectPrototype A} (props : gmap string A)
  : JsObject A :=
  mkObject props Object_prototype.

Definition empty_object {A} `{ObjectPrototype A} : JsObject A :=
  object_literal ∅.

End Js.

Import Js.

#[export] Instance JS_ret {W} : MRet (JS W) := fun A => @ret W A.
#[export] Instance JS_bind {W} : MBind (JS W) := fun A B k m => @bind W A B m k.

(** Calling a property value: a function is applied to its arguments; any
    other value, [undefined] included, is not callable. *)
Definition invoke {W S P R} (f : option (S → P → JS W R)) (state : S) (payload : P)
  : JS W R :=
  match f with
  | Some f => f state payload
  | None => throw "TypeError: reducerMap[type] is not a function"
  end.

(** ** The source, [index.ts] *)
Module Actionz.

(** [interface Action<P> { type: string, payload: P }] *)
Record Action (P : Type) : Type := mkAction {
  type : string;
  payload : P
}.
Arguments mkAction {P} type payload.
Arguments type {P} _.
Arguments payload {P} _.

(** [type ActionEffect<D, P> = (payload: D) => P] *)
Definition ActionEffect (W D P : Type) : Type := D → JS W P.

(** [type ActionCreator<D, P> = (data: D) => Action<P>]: a function object;
    [call] is its application and [toString] the method that [action]
    installs on it. *)
Record ActionCreator (W D P : Type) : Type := mkActionCreator {
  call : D → JS W (Action P);
  toString : unit → string
}.
Arguments mkActionCreator {W D P} call toString.
Arguments call {W D P} _ data.
Arguments toString {W D P} _ _.

(** [interface AsyncActionCreator<D1, D2, D3, P1, P2, P3>] *)
Record AsyncActionCreator (W D1 D2 D3 P1 P2 P3 : Type) : Type :=
  mkAsyncActionCreator {
    start : ActionCreator W D1 P1;
    success : ActionCreator W D2 P2;
    fail : ActionCreator W D3 P3
  }.
Arguments mkAsyncActionCreator {W D1 D2 D3 P1 P2 P3} start success fail.
Arguments start {W D1 D2 D3 P1 P2 P3} _.
Arguments success {W D1 D2 D3 P1 P2 P3} _.
Arguments fail {W D1 D2 D3 P1 P2 P3} _.

(** An optional effect, [effect?: ActionEffect<D, P>]: a function, or
    [undefined].  Where it is [undefined] the source puts [id] in its place,
    and the payload type is the input type (the default [P = D] of the
    signatures). *)
Inductive OptionalEffect (W D : Type) : Type → Type :=
| effect_given {P : Type} (effect : ActionEffect W D P) : OptionalEffect W D P
| effect_undefined : OptionalEffect W D D.
Arguments effect_given {W D P} effect.
Arguments effect_undefined {W D}.

(** The [effects] argument of [asyncAction]:
    [{ start?: ActionEffect, success?: ActionEffect, fail?: ActionEffect }]. *)
Module effects.
Record t (W D1 D2 D3 P1 P2 P3 : Type) : Type := mk {
  start : OptionalEffect W D1 P1;
  success : OptionalEffect W D2 P2;
  fail : OptionalEffect W D3 P3
}.
Arguments mk {W D1 D2 D3 P1 P2 P3} start success fail.
Arguments start {W D1 D2 D3 P1 P2 P3} _.
Arguments success {W D1 D2 D3 P1 P2 P3} _.
Arguments fail {W D1 D2 D3 P1 P2 P3} _.
End effects.

(** An optional [effects] argument: the object, or [undefined]. *)
Inductive OptionalEffects (W D1 D2 D3 : Type) : Type → Type → Type → Type :=
| effects_given {P1 P2 P3 : Type} (effects : effects.t W D1 D2 D3 P1 P2 P3)
  : OptionalEffects W D1 D2 D3 P1 P2 P3
| effects_undefined : OptionalEffects W D1 D2 D3 D1 D2 D3.
Arguments effects_given {W D1 D2 D3 P1 P2 P3} effects.
Arguments effects_undefined {W D1 D2 D3}.

(** [type ReduxState<S> = S | undefined]; [None] is [undefined]. *)
Definition ReduxState (S : Type) : Type := option S.

(** [type Reducer<S, P> = (state: ReduxState<S>, action: Action<P>) => S] *)
Definition Reducer (W S P : Type) : Type := ReduxState S → Action P → JS W S.

(** [type PayloadReducer<S, P> = (state: S, payload: P) => S] *)
Definition PayloadReducer (W S P : Type) : Type := S → P → JS W S.

(** [type Partial<A> = { [K in keyof A]?: A[K] }]: an object is given by the
    properties it has, so a partial [A] has the carrier of [A]. *)
Definition Partial (A : Type) : Type := A.

(** [type PartialPayloadReducer<S, P> = (state: S, payload: P) => Partial<S>] *)
Definition PartialPayloadReducer (W S P : Type) : Type := S → P → JS W (Partial S).

(** [interface PayloadReducerMap<S, P> { [actionType: string]: PayloadReducer<S, P> }] *)
Definition PayloadReducerMap (W S P : Type) : Type := JsObject (PayloadReducer W S P).

(** [interface PartialPayloadReducerMap<S, P>] *)
Definition PartialPayloadReducerMap (W S P : Type) : Type :=
  JsObject (PartialPayloadReducer W S P).

Section Source.
Context {W : Type}.

(** [const id = (x: any) => x] *)
Definition id {D : Type} (x : D) : JS W D := mret x.

(** [effect || id], and the default parameter [effect = id]. *)
Definition or_id {D P : Type} (effect : OptionalEffect W D P) : ActionEffect W D P :=
  match effect in OptionalEffect _ _ P return ActionEffect W D P with
  | effect_given effect => effect
  | effect_undefined => id
  end.

(** The default parameter [effects = {}]. *)
Definition or_empty {D1 D2 D3 P1 P2 P3 : Type}
    (effects : OptionalEffects W D1 D2 D3 P1 P2 P3)
  : effects.t W D1 D2 D3 P1 P2 P3 :=
  match effects in OptionalEffects _ _ _ _ P1 P2 P3
        return effects.t W D1 D2 D3 P1 P2 P3 with
  | effects_given effects => effects
  | effects_undefined => effects.mk effect_undefined effect_undefined effect_undefined
  end.

(** [export function action<D, P = D>(type, effect = id)] *)
Definition action {D P : Type} (type : string) (effect : OptionalEffect W D P)
  : ActionCreator W D P :=
  let effect := or_id effect in
  let actionCreator := fun data : D =>
    payload ← effect data;
    mret (mkAction type payload) in
  mkActionCreator actionCreator (fun _ => type).

(** [export function asyncAction(type, effects = {})] *)
Definition asyncAction {D1 D2 D3 P1 P2 P3 : Type} (type : string)
    (effects : OptionalEffects W D1 D2 D3 P1 P2 P3)
  : AsyncActionCreator W D1 D2 D3 P1 P2 P3 :=
  let effects := or_empty effects in
  mkAsyncActionCreator
    (action (type +:+ ":start") (effect_given (or_id (effects.start effects))))
    (action (type +:+ ":success") (effect_given (or_id (effects.success effects))))
    (action (type +:+ ":fail") (effect_given (or_id (effects.fail effects)))).

(** [export function handle(action, reducer)]: the object literal
    [{ [action.toString()]: reducer }]. *)
Definition handle {D S P : Type} `{ObjectPrototype (PayloadReducer W S P)}
    (action : ActionCreator W D P) (reducer : PayloadReducer W S P)
  : PayloadReducerMap W S P :=
  object_literal {[ toString action () := reducer ]}.

(** [export function createReducer(reducerMap, initialState)] *)
Definition createReducer {S P : Type}
    (reducerMap : PayloadReducerMap W S P) (initialState : S) : Reducer W S P :=
  fun (state : ReduxState S) (action : Action P) =>
    let state := default initialState state in
    let type := type action in
    if has_property type reducerMap then
      invoke (get reducerMap type) state (payload action)
    else
      mret state.

(** [export function createReducerAppend(reducerMap, initialState)]; its
    states are objects. *)
Definition createReducerAppend {V P : Type} `{ObjectPrototype V}
    (reducerMap : PartialPayloadReducerMap W (JsObject V) P)
    (initialState : JsObject V) : Reducer W (JsObject V) P :=
  fun (state : ReduxState (JsObject V)) (action : Action P) =>
    let state := default initialState state in
    let type := type action in
    if has_property type reducerMap then
      newStatePartition ← invoke (get reducerMap type) state (payload action);
      mret (objectAssign empty_object [state; newStatePartition])
    else
      mret state.

(** [export function handleActions(reducerMaps, initialState)] *)
Definition handleActions {S P : Type} `{ObjectPrototype (PayloadReducer W S P)}
    (reducerMaps : list (PayloadReducerMap W S P)) (initialState : S)
  : Reducer W S P :=
  createReducer (objectAssign empty_object reducerMaps) initialState.

(** [export function handleActionsAppend(reducerMaps, initialState)] *)
Definition handleActionsAppend {V P : Type} `{ObjectPrototype V}
    `{ObjectPrototype (PartialPayloadReducer W (JsObject V) P)}
    (reducerMaps : list (PartialPayloadReducerMap W (JsObject V) P))
    (initialState : JsObject V) : Reducer W (JsObject V) P :=
  createReducerAppend (objectAssign empty_object reducerMaps) initialState.

End Source.
End Actionz.


Import Actionz.

(** ** The notions of the specification *)

(** The specification's [combineHandlerMappings]: "one mapping containing the
    union of all keys"; "if the same discriminator key appears in multiple
    input mappings, the handler from the later mapping in the sequence wins".
    Read from the end of the sequence: a key keeps the handler of the latest
    mapping that has it. *)
Fixpoint later_wins {A} (key : string) (mappings : list (JsObject A)) : option A :=
  match mappings with
  | [] => None
  | m :: rest =>
      match later_wins key rest with
      | Some h => Some h
      | None => own m !! key
      end
  end.

Definition combineHandlerMappings {A} `{ObjectPrototype A}
    (mappings : list (JsObject A)) : JsObject A :=
  object_literal (foldr (fun m later => later ∪ own m) ∅ mappings).

(** The store engine is an external collaborator (Redux's [createStore]).
    By the specification it "invokes a produced Reducer as
    (currentStateOrUninitializedSentinel, action) -> nextState", one action
    at a time, the state returned by one call being the state of the next. *)
Fixpoint dispatchAll {W S P} (reducer : Reducer W S P) (state : ReduxState S)
    (actions : list (Action P)) : JS W (ReduxState S) :=
  match actions with
  | [] => mret state
  | action :: rest =>
      next ← reducer state action;
      dispatchAll reducer (Some next) rest
  end.

(** An effect instrumented to count its own invocations, in a counter kept
    beside the world it acts on; [invocations] reads the counter off a
    completion. *)
Definition counted {W D P} (effect : ActionEffect W D P)
  : ActionEffect (W * nat) D P :=
  fun data '(w, n) =>
    match effect data w with
    | Normal p w' => Normal p (w', S n)
    | Throw e w' => Throw e (w', S n)
    end.

Definition invocations {W A} (c : completion (W * nat) A) : nat :=
  match c with
  | Normal _ (_, n) => n
  | Throw _ (_, n) => n
  end.

(** ** Concrete data for the scenarios *)
Module Scenario.

(** The README's counter: [(state, payload) => state + payload] and
    [(state, payload) => state - payload] on integer-valued numbers, where
    JavaScript's arithmetic is exact. *)
Definition inc {W} : PayloadReducer W Z Z := fun state payload => mret (state + payload)%Z.
Definition dec {W} : PayloadReducer W Z Z := fun state payload => mret (state - payload)%Z.

(** [{ "inc": (s, p) => s + p, "dec": (s, p) => s - p }] *)
Definition counterMap {W} `{ObjectPrototype (PayloadReducer W Z Z)}
  : PayloadReducerMap W Z Z :=
  object_literal (<["inc" := inc]> {["dec" := dec]}).

(** ['x'.repeat(n)], of the test suite's effect. *)
Fixpoint repeat (s : string) (n : nat) : string :=
  match n with
  | O => ""
  | S n => s +:+ repeat s n
  end.

(** The merge law's handler, [h(s, p) = { b: p }]. *)
Definition setB {W} `{ObjectPrototype Z} : PartialPayloadReducer W (JsObject Z) Z :=
  fun _ p => mret (object_literal {["b" := p]}).

(** Primitive values, for states that a reducer may be handed or may hand
    back whatever its declared state type. *)
Inductive value : Type :=
| VUndefined
| VNull
| VBoolean (b : bool)
| VNumber (n : Z)
| VString (s : string).

(** [Object.prototype.toString], the one inherited member the scenarios call:
    invoked on a table (an ordinary object) it returns ["[object Object]"],
    whatever its arguments. *)
Definition Object_prototype_toString {W P} : PayloadReducer W value P :=
  fun _ _ => mret (VString "[object Object]").

(** [Object.prototype] cut down to that member. *)
Definition toString_prototype {W P} : ObjectPrototype (PayloadReducer W value P) :=
  ({["toString" := Callable Object_prototype_toString]}
     : gmap string (Member (PayloadReducer W value P))).

(** A table without prototype ([Object.create(null)]). *)
Definition no_prototype {A} : ObjectPrototype A := (∅ : gmap string (Member A)).

(** The README's handler [(state, payload) => 0]. *)
Definition reset {W P} : PayloadReducer W value P := fun _ _ => mret (VNumber 0).

End Scenario.

(** ** Notions for the further properties *)

(** The hand-written counterpart of the append strategy, which the README
    sets beside it: a full-replace handler that copies the state itself,
    [(state, payload) => objectAssign({}, state, h(state, payload))]. *)
Definition spread {W V P} `{ObjectPrototype V}
    (h : PartialPayloadReducer W (JsObject V) P)
  : PayloadReducer W (JsObject V) P :=
  fun state payload =>
    partial ← h state payload;
    mret (objectAssign empty_object [state; partial]).

(** The mapping the README writes by hand where it does not use the append
    strategy: every own handler of the mapping replaced by its copying
    counterpart; what the mapping inherits stays as it is. *)
Definition copying {W V P} `{ObjectPrototype V}
    (reducerMap : PartialPayloadReducerMap W (JsObject V) P)
  : PayloadReducerMap W (JsObject V) P :=
  mkObject (spread <$> own reducerMap) (inherited reducerMap).

(** Mappings no two of which have a key in common. *)
Fixpoint distinct_keys {A} (mappings : list (JsObject A)) : Prop :=
  match mappings with
  | [] => True
  | m :: rest => Forall (fun m' => own m ##ₘ own m') rest ∧ distinct_keys rest
  end.

(** [Object.prototype] cut down to two members: [toString], and the accessor
    [__proto__], through which an object literal reads its prototype, an
    object and no function. *)
Definition proto_accessor_prototype {W P}
  : ObjectPrototype (PayloadReducer W Scenario.value P) :=
  (<["__proto__" := NotCallable]>
     {["toString" := Callable Scenario.Object_prototype_toString]}
   : gmap string (Member (PayloadReducer W Scenario.value P))).

(** * Properties *)

(** ** Property lookup *)
Section Lookup.
Context {A : Type}.
Implicit Types (o : JsObject A) (key : string).

Lemma get_own o key a : own o !! key = Some a → get o key = Some a.
Proof. unfold get. by intros ->. Qed.

Lemma get_inherited o key :
  own o !! key = None → get o key = inherited o !! key ≫= callable.
Proof. unfold get. by intros ->. Qed.

Lemma has_property_own o key a : own o !! key = Some a → has_property key o = true.
Proof.
  intros Hown. unfold has_property. rewrite Hown.
  by rewrite (bool_decide_eq_true_2 _ (mk_is_Some _ _ eq_refl)).
Qed.

(** What can be called is there. *)
Lemma has_property_get o key : is_Some (get o key) → has_property key o = true.
Proof.
  unfold has_property, get. intros Hget.
  rewrite orb_true_iff, !bool_decide_eq_true.
  destruct (own o !! key) as [a|]; [eauto|].
  destruct (inherited o !! key) as [m|]; [eauto|]. by destruct Hget.
Qed.

Lemma has_property_false o key :
  has_property key o = false ↔ own o !! key = None ∧ inherited o !! key = None.
Proof.
  unfold has_property.
  rewrite orb_false_iff, !bool_decide_eq_false, <- !eq_None_not_Some. done.
Qed.

Lemma has_property_inherited o key (m : Member A) :
  inherited o !! key = Some m → has_property key o = true.
Proof.
  intros Hin. destruct (has_property key o) eqn:Hp; [done|].
  apply has_property_false in Hp as [_ Hp]. congruence.
Qed.

End Lookup.

(** ** Running callbacks *)
Section Monad.
Context {W A B : Type}.
Implicit Types (m : JS W A) (k : A → JS W B) (w : W).

Lemma bind_normal m k w a w' : m w = Normal a w' → (x ← m; k x) w = k a w'.
Proof. unfold mbind, JS_bind, bind. by intros ->. Qed.

Lemma bind_throw m k w e w' : m w = Throw e w' → (x ← m; k x) w = Throw e w'.
Proof. unfold mbind, JS_bind, bind. by intros ->. Qed.

Lemma ret_bind (a : A) k w : (x ← mret a; k x) w = k a w.
Proof. reflexivity. Qed.

Lemma mret_normal (a : A) w : (mret a : JS W A) w = Normal a w.
Proof. reflexivity. Qed.

End Monad.

(** ** [objectAssign] *)
Section Assign.
Context {A : Type}.
Implicit Types (target m : JsObject A) (sources : list (JsObject A)).

Lemma JsObject_eq (o1 o2 : JsObject A) :
  own o1 = own o2 → inherited o1 = inherited o2 → o1 = o2.
Proof. destruct o1, o2; simpl; congruence. Qed.

Lemma inherited_objectAssign target sources :
  inherited (objectAssign target sources) = inherited target.
Proof.
  revert target. induction sources as [|m sources IH]; intros target; [done|].
  simpl. by rewrite IH.
Qed.

Lemma own_objectAssign target sources :
  own (objectAssign target sources)
  = foldr (fun m later => later ∪ own m) ∅ sources ∪ own target.
Proof.
  revert target. induction sources as [|m sources IH]; intros target; simpl.
  - by rewrite (left_id_L ∅ (∪)).
  - rewrite IH. simpl. by rewrite (assoc_L (∪)).
Qed.

Lemma lookup_later_wins key sources :
  foldr (fun m later => later ∪ own m) ∅ sources !! key = later_wins key sources.
Proof.
  induction sources as [|m sources IH]; simpl; [done|].
  rewrite lookup_union, IH.
  by destruct (later_wins key sources), (own m !! key).
Qed.

Lemma dom_later_wins sources :
  dom (foldr (fun m later => later ∪ own m) ∅ sources) = ⋃ (keys <$> sources).
Proof.
  induction sources as [|m sources IH]; simpl.
  - apply dom_empty_L.
  - rewrite dom_union_L, IH. apply (comm_L (∪)).
Qed.

(** "Later wins", said without the recursion: the handler a key ends up with
    is that of a mapping after which no mapping has the key. *)
Lemma later_wins_last key before m after h :
  own m !! key = Some h →
  Forall (fun m' => own m' !! key = None) after →
  later_wins key (before ++ m :: after) = Some h.
Proof.
  intros Hm Hafter.
  assert (later_wins key after = None) as Hnone.
  { induction Hafter as [|m' after Hm' _ IH]; simpl; [done|]. by rewrite IH. }
  induction before as [|m0 before IH]; simpl.
  - by rewrite Hnone.
  - by rewrite IH.
Qed.

Lemma later_wins_none key sources :
  later_wins key sources = None ↔ Forall (fun m => own m !! key = None) sources.
Proof.
  induction sources as [|m sources IH]; simpl.
  - split; [constructor|done].
  - destruct (later_wins key sources) eqn:Hl.
    + split; [done|]. intros [_ Hs]%Forall_cons. by apply IH in Hs.
    + rewrite Forall_cons. split; [intros; split; [done|by apply IH]|by intros []].
Qed.

Context `{ObjectPrototype A}.

Lemma objectAssign_combine sources :
  objectAssign empty_object sources = combineHandlerMappings sources.
Proof.
  apply JsObject_eq.
  - rewrite own_objectAssign. simpl. by rewrite (right_id_L ∅ (∪)).
  - by rewrite inherited_objectAssign.
Qed.

End Assign.

(** ** The merged mapping of the composites *)
Section Merged.
Context {A : Type} `{ObjectPrototype A}.
Implicit Types (ms before after : list (JsObject A)).

Lemma own_combined_last key before m after h :
  own m !! key = Some h →
  Forall (fun m' => own m' !! key = None) after →
  own (objectAssign empty_object (before ++ m :: after)) !! key = Some h.
Proof.
  intros Hm Hafter. rewrite objectAssign_combine. simpl.
  rewrite lookup_later_wins. by apply later_wins_last.
Qed.

Lemma own_combined_none key ms :
  Forall (fun m => own m !! key = None) ms →
  own (objectAssign empty_object ms) !! key = None.
Proof.
  intros Hms. rewrite objectAssign_combine. simpl.
  rewrite lookup_later_wins. by apply later_wins_none.
Qed.

Lemma has_property_combined_none key ms :
  Forall (fun m => own m !! key = None) ms →
  Object_prototype !! key = None →
  has_property key (objectAssign empty_object ms) = false.
Proof.
  intros Hms Hproto. apply has_property_false. split.
  - by apply own_combined_none.
  - by rewrite inherited_objectAssign.
Qed.

Lemma objectAssign_collision (t : string) (h1 h2 : A) :
  objectAssign empty_object [object_literal {[t := h1]}; object_literal {[t := h2]}]
  = object_literal {[t := h2]}.
Proof.
  rewrite objectAssign_combine. apply JsObject_eq; [|done]. simpl.
  rewrite (left_id_L ∅ (∪)). apply map_eq. intros key.
  rewrite lookup_union. destruct (decide (key = t)) as [->|Hne].
  - by rewrite !lookup_singleton_eq.
  - by rewrite !lookup_singleton_ne.
Qed.

End Merged.

(** ** The reducer engine, case by case *)
Section Engine.
Context {W S P : Type}.
Implicit Types (reducerMap : PayloadReducerMap W S P) (state : ReduxState S)
  (action : Action P) (reducer member : PayloadReducer W S P).

(** The default parameter [state = initialState]. *)
Lemma createReducer_default reducerMap initialState action :
  createReducer reducerMap initialState None action
  = createReducer reducerMap initialState (Some initialState) action.
Proof. reflexivity. Qed.

Lemma createReducer_own reducerMap initialState state action reducer :
  own reducerMap !! type action = Some reducer →
  createReducer reducerMap initialState state action
  = reducer (default initialState state) (payload action).
Proof.
  intros Hown. unfold createReducer; cbv zeta.
  by rewrite (has_property_own _ _ _ Hown), (get_own _ _ _ Hown).
Qed.


Lemma createReducer_absent reducerMap initialState state action :
  has_property (type action) reducerMap = false →
  createReducer reducerMap initialState state action
  = mret (default initialState state).
Proof. intros Hno. unfold createReducer; cbv zeta. by rewrite Hno. Qed.

(** An action whose type is no property of the mapping leaves a defined
    state as it is: the reducer returns the state it was given. *)
Lemma createReducer_unhandled reducerMap initialState (s : S) action :
  has_property (type action) reducerMap = false →
  createReducer reducerMap initialState (Some s) action = mret s.
Proof. apply createReducer_absent. Qed.

(** The store's first dispatch starts from the initial state. *)
Lemma dispatchAll_undefined reducerMap initialState action rest :
  dispatchAll (createReducer reducerMap initialState) None (action :: rest)
  = dispatchAll (createReducer reducerMap initialState) (Some initialState)
      (action :: rest).
Proof. reflexivity. Qed.

End Engine.

Section EngineAppend.
Context {W V P : Type} `{ObjectPrototype V}.
Implicit Types (reducerMap : PartialPayloadReducerMap W (JsObject V) P)
  (state : ReduxState (JsObject V)) (action : Action P)
  (reducer member : PartialPayloadReducer W (JsObject V) P).

(** [objectAssign({}, state, newStatePartition)]: a new object literal that
    has the partition's properties and, for the other keys, the state's. *)
Lemma objectAssign_state (s partial : JsObject V) :
  objectAssign empty_object [s; partial] = object_literal (own partial ∪ own s).
Proof.
  apply JsObject_eq; simpl; [|done].
  by rewrite (right_id_L ∅ (∪)).
Qed.

Lemma createReducerAppend_default reducerMap initialState action :
  createReducerAppend reducerMap initialState None action
  = createReducerAppend reducerMap initialState (Some initialState) action.
Proof. reflexivity. Qed.

Lemma createReducerAppend_own reducerMap initialState state action reducer :
  own reducerMap !! type action = Some reducer →
  createReducerAppend reducerMap initialState state action
  = (newStatePartition ← reducer (default initialState state) (payload action);
     mret (objectAssign empty_object
             [default initialState state; newStatePartition])).
Proof.
  intros Hown. unfold createReducerAppend; cbv zeta.
  by rewrite (has_property_own _ _ _ Hown), (get_own _ _ _ Hown).
Qed.


Lemma createReducerAppend_absent reducerMap initialState state action :
  has_property (type action) reducerMap = false →
  createReducerAppend reducerMap initialState state action
  = mret (default initialState state).
Proof. intros Hno. unfold createReducerAppend; cbv zeta. by rewrite Hno. Qed.

(** The append strategy, too, returns the very state it was given, and
    builds no object, when the action's type is no property of the
    mapping. *)
Lemma createReducerAppend_unhandled reducerMap initialState (s : JsObject V) action :
  has_property (type action) reducerMap = false →
  createReducerAppend reducerMap initialState (Some s) action = mret s.
Proof. apply createReducerAppend_absent. Qed.

End EngineAppend.

(** ** The first call: [state] is [undefined] *)




(** C2.  With [undefined] as state and an action whose type is a key of the
    mapping, the reducer of [createReducer] returns the matching handler
    applied to the initial state and the action's payload. *)
Theorem C2_first_call_applies_handler (W S P : Type)
    (reducerMap : PayloadReducerMap W S P) (initialState : S)
    (action : Action P) (reducer : PayloadReducer W S P) :
  own reducerMap !! type action = Some reducer →
  get reducerMap (type action) = Some reducer
  ∧ createReducer reducerMap initialState None action
    = reducer initialState (payload action).
Proof.
  intros Hown. split; [by apply get_own|].
  by rewrite (createReducer_own _ _ _ _ _ Hown).
Qed.

(** C2 at the README's counter and the action [inc(10)]. *)
Lemma C2_first_call_applies_handler_witness :
  let reducerMap := @Scenario.counterMap unit Scenario.no_prototype in
  own reducerMap !! "inc" = Some Scenario.inc
  ∧ createReducer reducerMap 0%Z None (mkAction "inc" 10%Z)
    = Scenario.inc 0%Z 10%Z.
Proof.
  intros reducerMap. split; [reflexivity|].
  apply (C2_first_call_applies_handler unit Z Z reducerMap 0%Z
           (mkAction "inc" 10%Z) Scenario.inc).
  reflexivity.
Defined.

(** ** Actions without a handler *)

(** C3 does not hold of the code.  [type in reducerMap] is also true of the
    names a table inherits from [Object.prototype]: for the README's
    [{ "incrementLater:start": (state, payload) => 0 }], in state [5], the
    action of type ["toString"], which is no key of the mapping, is passed
    to [Object.prototype.toString], and the reducer returns the string
    ["[object Object]"] and not the state. *)
Lemma C3_inherited_member_called_for_unhandled_action :
  let reducerMap :=
    @object_literal (PayloadReducer unit Scenario.value Scenario.value)
      Scenario.toString_prototype
      {["incrementLater:start" := Scenario.reset]} in
  let reducer := createReducer reducerMap (Scenario.VNumber 0) in
  let action := mkAction "toString" Scenario.VNull in
  ("toString" ∉ keys reducerMap)
  ∧ reducer (Some (Scenario.VNumber 5)) action ()
    = Normal (Scenario.VString "[object Object]") ()
  ∧ reducer (Some (Scenario.VNumber 5)) action () ≠ Normal (Scenario.VNumber 5) ().
Proof.
  intros reducerMap reducer action. split; [|split].
  - unfold keys, reducerMap, object_literal. simpl.
    rewrite dom_singleton_L, elem_of_singleton. discriminate.
  - reflexivity.
  - discriminate.
Qed.

(** ** The append strategy *)

(** C4.  On a defined state [s] and an action whose type has the handler
    [reducer], the reducer of [createReducerAppend] returns an object in
    which every key of [partial = reducer(s, payload)] has [partial]'s value
    and every other key has the value it has in [s] (values are copied as
    they are: nothing is merged below the top level), and which has no
    further key.  With [s = {a: 1, b: 2}], [h(s, p) = {b: p}] and payload
    [9] the result is [{a: 1, b: 9}]. *)
Theorem C4_append_overwrites_top_level_keys :
  (∀ (W V P : Type) `{ObjectPrototype V}
     (reducerMap : PartialPayloadReducerMap W (JsObject V) P)
     (initialState s partial : JsObject V) (action : Action P)
     (reducer : PartialPayloadReducer W (JsObject V) P) (w w' : W),
     own reducerMap !! type action = Some reducer →
     reducer s (payload action) w = Normal partial w' →
     ∃ result : JsObject V,
       createReducerAppend reducerMap initialState (Some s) action w
       = Normal result w'
       ∧ (∀ key v, own partial !! key = Some v → own result !! key = Some v)
       ∧ (∀ key, own partial !! key = None → own result !! key = own s !! key)
       ∧ keys result = keys s ∪ keys partial)
  ∧ (∀ (W : Type) `{ObjectPrototype Z}
       `{ObjectPrototype (PartialPayloadReducer W (JsObject Z) Z)}
       (t : string) (initialState : JsObject Z) (w : W),
       createReducerAppend (object_literal {[t := Scenario.setB]}) initialState
         (Some (object_literal (<["a" := 1%Z]> {["b" := 2%Z]})))
         (mkAction t 9%Z) w
       = Normal (object_literal (<["a" := 1%Z]> {["b" := 9%Z]})) w).
Proof.
  split.
  - intros W V P HV reducerMap initialState s partial action reducer w w'
      Hown Hpartial.
    exists (object_literal (own partial ∪ own s)).
    split; [|split; [|split]].
    + rewrite (createReducerAppend_own _ _ _ _ _ Hown). simpl default.
      rewrite (bind_normal _ _ _ _ _ Hpartial).
      by rewrite objectAssign_state.
    + intros key v Hkey. simpl. by apply lookup_union_Some_l.
    + intros key Hkey. simpl. by apply lookup_union_r.
    + unfold keys. simpl. rewrite dom_union_L. apply (comm_L (∪)).
  - intros W HZ HR t initialState w.
    rewrite (createReducerAppend_own _ _ _ _ Scenario.setB).
    2: { apply lookup_singleton_eq. }
    simpl default. unfold Scenario.setB. rewrite ret_bind.
    rewrite objectAssign_state, mret_normal. reflexivity.
Qed.

(** C4 at the merge law's own data, with a table and objects that have no
    prototype. *)
Lemma C4_append_overwrites_top_level_keys_witness :
  let reducerMap :=
    @object_literal (PartialPayloadReducer unit (JsObject Z) Z)
      Scenario.no_prototype
      {["t" := @Scenario.setB unit Scenario.no_prototype]} in
  let s := @object_literal Z Scenario.no_prototype (<["a" := 1%Z]> {["b" := 2%Z]}) in
  let partial := @object_literal Z Scenario.no_prototype {["b" := 9%Z]} in
  own reducerMap !! "t" = Some (@Scenario.setB unit Scenario.no_prototype)
  ∧ @Scenario.setB unit Scenario.no_prototype s 9%Z () = Normal partial ()
  ∧ ∃ result : JsObject Z,
      createReducerAppend (H := Scenario.no_prototype) reducerMap s (Some s)
        (mkAction "t" 9%Z) ()
      = Normal result ()
      ∧ (∀ key v, own partial !! key = Some v → own result !! key = Some v)
      ∧ (∀ key, own partial !! key = None → own result !! key = own s !! key)
      ∧ keys result = keys s ∪ keys partial.
Proof.
  intros reducerMap s partial.
  split; [reflexivity|]. split; [reflexivity|].
  apply (proj1 C4_append_overwrites_top_level_keys unit Z Z
           Scenario.no_prototype reducerMap s s partial (mkAction "t" 9%Z)
           (@Scenario.setB unit Scenario.no_prototype) () ());
    reflexivity.
Defined.

(** ** Combining and building handler mappings *)

(** C5.  The merge inside [handleActions] and [handleActionsAppend],
    [objectAssign({}, ...reducerMaps)], is seen in what their reducers do.
    The keys of the merged mapping are the union of the keys of the
    mappings: an action whose type is a key of some mapping is handled, and
    one whose type is a key of none of them (nor inherited) is not.  Where
    several mappings have the key, the handler of the latest of them in the
    sequence is the one that runs, whatever the earlier ones hold.  For
    [{t: h1}] and [{t: h2}] the reducers are those of [{t: h2}]: on every
    state, action and world they do what the reducer of the single mapping
    does, so the collision raises nothing and [h1] never runs. *)
Theorem C5_combining_later_mapping_wins (W S V P : Type)
    `{ObjectPrototype V} `{ObjectPrototype (PayloadReducer W S P)}
    `{ObjectPrototype (PartialPayloadReducer W (JsObject V) P)}
    (initialState : S) (state : ReduxState S)
    (initialObject : JsObject V) (object : ReduxState (JsObject V))
    (action : Action P) :
  (∀ (before : list (PayloadReducerMap W S P)) m after h,
     own m !! type action = Some h →
     Forall (fun m' => own m' !! type action = None) after →
     handleActions (before ++ m :: after) initialState state action
     = h (default initialState state) (payload action))
  ∧ (∀ (before : list (PartialPayloadReducerMap W (JsObject V) P)) m after h,
       own m !! type action = Some h →
       Forall (fun m' => own m' !! type action = None) after →
       handleActionsAppend (before ++ m :: after) initialObject object action
       = (newStatePartition ←
            h (default initialObject object) (payload action);
          mret (objectAssign empty_object
                  [default initialObject object; newStatePartition])))
  ∧ (∀ ms : list (PayloadReducerMap W S P),
       Forall (fun m => own m !! type action = None) ms →
       (Object_prototype : gmap string (Member (PayloadReducer W S P)))
         !! type action = None →
       handleActions ms initialState state action
       = mret (default initialState state))
  ∧ (∀ ms : list (PartialPayloadReducerMap W (JsObject V) P),
       Forall (fun m => own m !! type action = None) ms →
       (Object_prototype
         : gmap string (Member (PartialPayloadReducer W (JsObject V) P)))
         !! type action = None →
       handleActionsAppend ms initialObject object action
       = mret (default initialObject object))
  ∧ (∀ (t : string) (h1 h2 : PayloadReducer W S P) (p : P) (w : W),
       handleActions [object_literal {[t := h1]}; object_literal {[t := h2]}]
         initialState state action w
       = createReducer (object_literal {[t := h2]}) initialState state action w
       ∧ handleActions [object_literal {[t := h1]}; object_literal {[t := h2]}]
           initialState state (mkAction t p) w
         = h2 (default initialState state) p w)
  ∧ (∀ (t : string) (h1 h2 : PartialPayloadReducer W (JsObject V) P) (w : W),
       handleActionsAppend
         [object_literal {[t := h1]}; object_literal {[t := h2]}]
         initialObject object action w
       = createReducerAppend (object_literal {[t := h2]}) initialObject
           object action w).
Proof.
  split; [|split; [|split; [|split; [|split]]]].
  - intros before m after h Hm Hafter. unfold handleActions.
    apply createReducer_own. by apply own_combined_last.
  - intros before m after h Hm Hafter. unfold handleActionsAppend.
    apply createReducerAppend_own. by apply own_combined_last.
  - intros ms Hms Hproto. unfold handleActions.
    apply createReducer_absent. by apply has_property_combined_none.
  - intros ms Hms Hproto. unfold handleActionsAppend.
    apply createReducerAppend_absent. by apply has_property_combined_none.
  - intros t h1 h2 p w. unfold handleActions.
    rewrite objectAssign_collision. split; [done|].
    rewrite (createReducer_own _ _ _ (mkAction t p) h2); [done|].
    apply lookup_singleton_eq.
  - intros t h1 h2 w. unfold handleActionsAppend.
    by rewrite objectAssign_collision.
Qed.

(** C5 at [handleActions] for three mappings, two of which handle ["inc"]:
    the later one's handler, [dec], runs on state [10] and payload [3]. *)
Lemma C5_combining_later_mapping_wins_witness :
  let first :=
    @object_literal (PayloadReducer unit Z Z) Scenario.no_prototype
      {["inc" := Scenario.inc]} in
  let second :=
    @object_literal (PayloadReducer unit Z Z) Scenario.no_prototype
      {["inc" := Scenario.dec]} in
  let third :=
    @object_literal (PayloadReducer unit Z Z) Scenario.no_prototype
      {["dec" := Scenario.dec]} in
  own second !! "inc" = Some Scenario.dec
  ∧ Forall (fun m' : PayloadReducerMap unit Z Z => own m' !! "inc" = None) [third]
  ∧ handleActions (H := Scenario.no_prototype) ([first] ++ second :: [third])
      0%Z (Some 10%Z) (mkAction "inc" 3%Z)
    = Scenario.dec 10%Z 3%Z.
Proof.
  intros first second third.
  assert (Forall (fun m' : PayloadReducerMap unit Z Z => own m' !! "inc" = None)
            [third]) as Hafter.
  { repeat constructor. }
  split; [reflexivity|]. split; [exact Hafter|].
  destruct (C5_combining_later_mapping_wins unit Z Z Z
              (H := Scenario.no_prototype) (H0 := Scenario.no_prototype)
              (H1 := Scenario.no_prototype)
              0%Z (Some 10%Z) (@object_literal Z Scenario.no_prototype ∅) None
              (mkAction "inc" 3%Z)) as (Hlast & _).
  apply (Hlast [first] second [third] Scenario.dec); [reflexivity|exact Hafter].
Defined.

(** C9.  [handleActions] is [createReducer] after the specification's
    [combineHandlerMappings], and [handleActionsAppend] is
    [createReducerAppend] after it: on every state, action and world the
    composite and the composition agree. *)
Theorem C9_composites_pipe_combine_into_constructor (W S V P : Type)
    `{ObjectPrototype V} `{ObjectPrototype (PayloadReducer W S P)}
    `{ObjectPrototype (PartialPayloadReducer W (JsObject V) P)}
    (ms : list (PayloadReducerMap W S P)) (initial : S)
    (msAppend : list (PartialPayloadReducerMap W (JsObject V) P))
    (initialObject : JsObject V) :
  (∀ state action w,
     handleActions ms initial state action w
     = createReducer (combineHandlerMappings ms) initial state action w)
  ∧ (∀ state action w,
       handleActionsAppend msAppend initialObject state action w
       = createReducerAppend (combineHandlerMappings msAppend) initialObject
           state action w).
Proof.
  split; intros state action w.
  - unfold handleActions. by rewrite objectAssign_combine.
  - unfold handleActionsAppend. by rewrite objectAssign_combine.
Qed.

(** C10.  [handle(c, h)] is a mapping with exactly one entry: its key is the
    string [c.toString()], its value is [h]; for a constructor made by
    [action(t, f)] the key is [t]. *)
Theorem C10_handle_is_single_entry (W D S P : Type)
    `{ObjectPrototype (PayloadReducer W S P)}
    (c : ActionCreator W D P) (h : PayloadReducer W S P) :
  own (handle c h) = {[toString c () := h]}
  ∧ keys (handle c h) = {[toString c ()]}
  ∧ size (own (handle c h)) = 1
  ∧ get (handle c h) (toString c ()) = Some h
  ∧ (∀ (t : string) (f : OptionalEffect W D P) (h' : PayloadReducer W S P),
       own (handle (action t f) h') = {[t := h']}).
Proof.
  split; [done|]. split; [apply dom_singleton_L|].
  split; [apply map_size_singleton|].
  split; [|done].
  apply get_own. apply lookup_singleton_eq.
Qed.

(** ** Action creators *)

(** C6.  The creator [action(t, f)], called with [d], runs [f] on [d] and
    returns the action of type [t] whose payload is what [f] returned; the
    call is that one run of [f] and nothing else (an exception of [f] is the
    call's, an instrumented [f] counts one invocation per call), and
    [action] itself, a function into creators, takes no world and runs
    nothing.  Without effect the payload is [d]. *)
Theorem C6_action_applies_effect_once (W D P : Type) (t : string)
    (f : ActionEffect W D P) (d : D) :
  call (action t (effect_given f)) d = (p ← f d; mret (mkAction t p))
  ∧ call (action (W := W) t effect_undefined) d = mret (mkAction t d)
  ∧ toString (action t (effect_given f)) () = t
  ∧ toString (action (W := W) (D := D) t effect_undefined) () = t
  ∧ (∀ w p w', f d w = Normal p w' →
       call (action t (effect_given f)) d w = Normal (mkAction t p) w')
  ∧ (∀ w e w', f d w = Throw e w' →
       call (action t (effect_given f)) d w = Throw e w')
  ∧ (∀ w n,
       invocations (call (action t (effect_given (counted f))) d (w, n)) = S n).
Proof.
  split; [reflexivity|]. split; [reflexivity|].
  split; [reflexivity|]. split; [reflexivity|].
  split; [|split].
  - intros w p w' Hf. simpl. by rewrite (bind_normal _ _ _ _ _ Hf).
  - intros w e w' Hf. simpl. by rewrite (bind_throw _ _ _ _ _ Hf).
  - intros w n. simpl. unfold mbind, JS_bind, bind, counted.
    by destruct (f d w).
Qed.

(** C6 at the effect of the test suite: it adds its input to a counter, the
    world, and returns ['x'.repeat(data)]. *)
Lemma C6_action_applies_effect_once_witness :
  let effect : ActionEffect nat nat string :=
    fun data counter => Normal (Scenario.repeat "x" data) (counter + data) in
  effect 3 0 = Normal "xxx" 3
  ∧ call (action "action with effect" (effect_given effect)) 3 0
    = Normal (mkAction "action with effect" "xxx") 3.
Proof.
  intros effect. split; [reflexivity|].
  destruct (C6_action_applies_effect_once nat nat string
              "action with effect" effect 3)
    as (_ & _ & _ & _ & Hnormal & _).
  apply Hnormal. reflexivity.
Defined.

(** C7.  [asyncAction(type, effects)] is a record of exactly three creators,
    [start], [success] and [fail]; they are the creators [action] makes for
    the types [type + ":start"], [type + ":success"] and [type + ":fail"]
    with the effect of the same name in [effects], or without effect where
    [effects] has none; so [asyncAction("x")] yields the types ["x:start"],
    ["x:success"] and ["x:fail"]. *)
Theorem C7_asyncAction_three_creators (W D1 D2 D3 P1 P2 P3 : Type)
    (type : string) (effects : OptionalEffects W D1 D2 D3 P1 P2 P3) :
  let given := or_empty effects in
  asyncAction type effects
  = mkAsyncActionCreator
      (action (type +:+ ":start") (effects.start given))
      (action (type +:+ ":success") (effects.success given))
      (action (type +:+ ":fail") (effects.fail given))
  ∧ toString (start (asyncAction type effects)) () = type +:+ ":start"
  ∧ toString (success (asyncAction type effects)) () = type +:+ ":success"
  ∧ toString (fail (asyncAction type effects)) () = type +:+ ":fail"
  ∧ (∀ d,
       call (start (asyncAction type effects)) d
       = (p ← or_id (effects.start given) d;
          mret (mkAction (type +:+ ":start") p)))
  ∧ (∀ d,
       call (success (asyncAction type effects)) d
       = (p ← or_id (effects.success given) d;
          mret (mkAction (type +:+ ":success") p)))
  ∧ (∀ d,
       call (fail (asyncAction type effects)) d
       = (p ← or_id (effects.fail given) d;
          mret (mkAction (type +:+ ":fail") p)))
  ∧ (∀ (d1 : D1) (d2 : D2) (d3 : D3) (w : W),
       let x := asyncAction "x" effects_undefined in
       call (start x) d1 w = Normal (mkAction "x:start" d1) w
       ∧ call (success x) d2 w = Normal (mkAction "x:success" d2) w
       ∧ call (fail x) d3 w = Normal (mkAction "x:fail" d3) w).
Proof.
  intros given. repeat split; reflexivity.
Qed.

(** ** End to end *)

(** C8.  The reducer made from initial state [0] and the mapping
    [{ "inc": (s, p) => s + p, "dec": (s, p) => s - p }], by [createReducer]
    or by [handleActions], taken from [undefined] through the actions
    [inc(10)] and [dec(5)], ends in state [5]. *)
Theorem C8_counter_scenario (W : Type) `{ObjectPrototype (PayloadReducer W Z Z)}
    (w : W) :
  let inc := action "inc" effect_undefined in
  let dec := action "dec" effect_undefined in
  (a1 ← call inc 10%Z; a2 ← call dec 5%Z;
   dispatchAll (createReducer Scenario.counterMap 0%Z) None [a1; a2]) w
  = Normal (Some 5%Z) w
  ∧ (a1 ← call inc 10%Z; a2 ← call dec 5%Z;
     dispatchAll (handleActions [Scenario.counterMap] 0%Z) None [a1; a2]) w
    = Normal (Some 5%Z) w.
Proof.
  intros inc dec. split; reflexivity.
Qed.

(** ** The test suite's and the README's runs *)

(** "Creating action creator does not fire effect yet", "Calling action
    creator fires an effect", "Calling action creator again still fires an
    effect": the effect adds its input to a counter, here the world, which
    goes from [0] to [3 + 1 + 4]. *)
Example effect_fires_once_per_call :
  let effect : ActionEffect nat nat string :=
    fun data counter => Normal (Scenario.repeat "x" data) (counter + data) in
  let actionCreator := action "action with effect" (effect_given effect) in
  (first ← call actionCreator 3;
   _ ← call actionCreator 1;
   _ ← call actionCreator 4;
   mret first) 0
  = Normal (mkAction "action with effect" "xxx") 8.
Proof. reflexivity. Qed.

(** The lifecycle group ["req"] without effects: [req.success(4)] is
    [{ type: "req:success", payload: 4 }]. *)
Example req_success (W : Type) (w : W) :
  call (success (asyncAction (D1 := unit) (D3 := unit) "req" effects_undefined)) 4%Z w
  = Normal (mkAction "req:success" 4%Z) w.
Proof. reflexivity. Qed.

(** "Initial state is set if state was undefined", for the action [dummy]
    that the README's counter does not handle. *)
Example initial_state_is_set :
  createReducer (W := unit) (@Scenario.counterMap unit Scenario.no_prototype) 0%Z
    None (mkAction "dummy" 0%Z) ()
  = Normal 0%Z ().
Proof. reflexivity. Qed.

(** * Further properties of the source *)

(** ** Dispatch *)
Section Dispatch.
Context {W S P : Type}.
Implicit Types (reducerMap : PayloadReducerMap W S P) (state : ReduxState S)
  (action : Action P) (reducer member : PayloadReducer W S P).

(** X1.  The reducers' own failure.  Where the action's type is no own key
    of the mapping but the name of an inherited member that is no function
    (as [__proto__] is for every object literal), [type in reducerMap] holds
    and the call of [reducerMap[type]] throws the TypeError: the reducers of
    [createReducer] and [createReducerAppend] do not return the state, and
    the world is as it was. *)
Theorem X1_not_callable_member_throws (V : Type) `{ObjectPrototype V}
    reducerMap (initialState : S) state action
    (appendMap : PartialPayloadReducerMap W (JsObject V) P)
    (initialObject : JsObject V) (object : ReduxState (JsObject V)) (w : W) :
  (own reducerMap !! type action = None →
   inherited reducerMap !! type action = Some NotCallable →
   createReducer reducerMap initialState state action w
   = Throw "TypeError: reducerMap[type] is not a function" w)
  ∧ (own appendMap !! type action = None →
     inherited appendMap !! type action = Some NotCallable →
     createReducerAppend appendMap initialObject object action w
     = Throw "TypeError: reducerMap[type] is not a function" w).
Proof.
  split; intros Hown Hin.
  - unfold createReducer; cbv zeta.
    rewrite (has_property_inherited _ _ _ Hin).
    by rewrite (get_inherited _ _ Hown), Hin.
  - unfold createReducerAppend; cbv zeta.
    rewrite (has_property_inherited _ _ _ Hin).
    by rewrite (get_inherited _ _ Hown), Hin.
Qed.

(** Folding a reducer that ignores every action of a list. *)
Lemma dispatchAll_ignored (r : Reducer W S P) (initialState : S) actions state w :
  Forall (fun action => ∀ state, r state action = mret (default initialState state))
    actions →
  dispatchAll r state actions w
  = Normal (match actions with
            | [] => state
            | _ => Some (default initialState state)
            end) w.
Proof.
  intros Hall. revert state.
  induction Hall as [|action rest Haction _ IH]; intros state; [done|].
  simpl. rewrite Haction, ret_bind, IH. by destruct rest.
Qed.

End Dispatch.

(** X1 at the README's table [{ "incrementLater:start": (state, payload) => 0 }]
    in state [5], for the action type ["__proto__"], and at an append table
    with the same inheritance. *)
Lemma X1_not_callable_member_throws_witness :
  let reducerMap :=
    @object_literal (PayloadReducer unit Scenario.value Z)
      proto_accessor_prototype
      {["incrementLater:start" := Scenario.reset]} in
  let appendMap :=
    mkObject (∅ : gmap string (PartialPayloadReducer unit (JsObject Z) Z))
      {["__proto__" := NotCallable]} in
  let object := @object_literal Z Scenario.no_prototype {["a" := 1%Z]} in
  (own reducerMap !! "__proto__" = None
   ∧ inherited reducerMap !! "__proto__" = Some NotCallable
   ∧ createReducer reducerMap (Scenario.VNumber 0) (Some (Scenario.VNumber 5))
       (mkAction "__proto__" 7%Z) ()
     = Throw "TypeError: reducerMap[type] is not a function" ())
  ∧ (own appendMap !! "__proto__" = None
     ∧ inherited appendMap !! "__proto__" = Some NotCallable
     ∧ createReducerAppend (H := Scenario.no_prototype) appendMap object
         (Some object) (mkAction "__proto__" 7%Z) ()
       = Throw "TypeError: reducerMap[type] is not a function" ()).
Proof.
  intros reducerMap appendMap object.
  destruct (X1_not_callable_member_throws (W := unit) (S := Scenario.value)
              (P := Z) Z (H := Scenario.no_prototype)
              reducerMap (Scenario.VNumber 0) (Some (Scenario.VNumber 5))
              (mkAction "__proto__" 7%Z) appendMap object (Some object) ())
    as [Hreplace Happend].
  split; (split; [reflexivity|]; split; [reflexivity|]).
  - apply Hreplace; reflexivity.
  - apply Happend; reflexivity.
Defined.



(** X3.  Actions whose types are no properties of the mapping leave the
    state alone however many are dispatched: folding the reducer of
    [createReducer] or of [createReducerAppend] over such a list returns the
    state it started from, the initial state when it started from
    [undefined], and the world is as it was. *)
Theorem X3_unhandled_actions_keep_state (W S V P : Type) `{ObjectPrototype V}
    (reducerMap : PayloadReducerMap W S P) (initialState : S)
    (state : ReduxState S)
    (appendMap : PartialPayloadReducerMap W (JsObject V) P)
    (initialObject : JsObject V) (object : ReduxState (JsObject V))
    (actions : list (Action P)) (w : W) :
  (Forall (fun action => has_property (type action) reducerMap = false) actions →
   dispatchAll (createReducer reducerMap initialState) state actions w
   = Normal (match actions with
             | [] => state
             | _ => Some (default initialState state)
             end) w)
  ∧ (Forall (fun action => has_property (type action) appendMap = false) actions →
     dispatchAll (createReducerAppend appendMap initialObject) object actions w
     = Normal (match actions with
               | [] => object
               | _ => Some (default initialObject object)
               end) w).
Proof.
  split; intros Hall; apply dispatchAll_ignored;
    (eapply Forall_impl; [exact Hall|]); simpl; intros action Hno state'.
  - by apply createReducer_absent.
  - by apply createReducerAppend_absent.
Qed.

(** X3 at the README's counter and two actions it does not handle. *)
Lemma X3_unhandled_actions_keep_state_witness :
  let reducerMap := @Scenario.counterMap unit Scenario.no_prototype in
  let actions := [mkAction "dummy" 1%Z; mkAction "noop" 2%Z] in
  Forall (fun action => has_property (type action) reducerMap = false) actions
  ∧ dispatchAll (createReducer reducerMap 0%Z) (Some 5%Z) actions ()
    = Normal (Some 5%Z) ().
Proof.
  intros reducerMap actions.
  assert (Forall (fun action => has_property (type action) reducerMap = false)
            actions) as Hall.
  { repeat constructor. }
  split; [exact Hall|].
  apply (proj1 (X3_unhandled_actions_keep_state unit Z Z Z
                  (H := Scenario.no_prototype) reducerMap 0%Z (Some 5%Z)
                  (@object_literal _ Scenario.no_prototype ∅)
                  (@object_literal _ Scenario.no_prototype ∅) None actions ())
          Hall).
Defined.

(** ** From a creator to its handler *)
(** X4.  An action made by a creator reaches the handler that [handle]
    associates with that creator: with [handle(action(t, effect), h)] among
    the mappings of [handleActions], and no later mapping having the key
    [t], calling the creator with [d] and dispatching the action runs [h] on
    the state and on the payload the effect made from [d], whatever the
    earlier mappings hold for [t]. *)
Theorem X4_created_action_reaches_its_handler (W D S P : Type)
    `{ObjectPrototype (PayloadReducer W S P)}
    (before after : list (PayloadReducerMap W S P)) (t : string)
    (effect : OptionalEffect W D P) (h : PayloadReducer W S P)
    (initialState : S) (state : ReduxState S) (d : D) (w : W) :
  Forall (fun m => own m !! t = None) after →
  (a ← call (action t effect) d;
   handleActions (before ++ handle (action t effect) h :: after)
     initialState state a) w
  = (p ← or_id effect d; h (default initialState state) p) w.
Proof.
  intros Hafter.
  assert (∀ p, handleActions (before ++ handle (action t effect) h :: after)
                 initialState state (mkAction t p)
               = h (default initialState state) p) as Hrun.
  { intros p. unfold handleActions. apply createReducer_own. simpl.
    apply own_combined_last; [apply lookup_singleton_eq|done]. }
  simpl. unfold mbind, JS_bind, bind.
  destruct (or_id effect d w) as [p w'|e w']; [|done].
  simpl. by rewrite Hrun.
Qed.

(** X4 at the test suite's [handleActions] reducer and its action [add(2)],
    on integer states. *)
Lemma X4_created_action_reaches_its_handler_witness :
  let add := action (W := unit) (D := Z) "add" effect_undefined in
  let sub := action (W := unit) (D := Z) "sub" effect_undefined in
  let after := [@handle unit Z Z Z Scenario.no_prototype sub Scenario.dec] in
  Forall (fun m : PayloadReducerMap unit Z Z => own m !! "add" = None) after
  ∧ (a ← call add 2%Z;
     handleActions (H := Scenario.no_prototype)
       ([] ++ handle (H := Scenario.no_prototype) add Scenario.inc :: after)
       10%Z None a) ()
    = (p ← or_id effect_undefined 2%Z; Scenario.inc 10%Z p) ().
Proof.
  intros add sub after.
  assert (Forall (fun m : PayloadReducerMap unit Z Z => own m !! "add" = None)
            after) as Hafter.
  { repeat constructor. }
  split; [exact Hafter|].
  exact (X4_created_action_reaches_its_handler unit Z Z Z
           (H := Scenario.no_prototype) [] after "add" effect_undefined
           Scenario.inc 10%Z None 2%Z () Hafter).
Defined.

(** X5.  The same for the append strategy: the action made by the creator
    reaches the partial handler associated with it, and the reducer of
    [handleActionsAppend] returns the state with the handler's result merged
    in. *)
Theorem X5_created_action_reaches_its_append_handler (W D V P : Type)
    `{ObjectPrototype V}
    `{ObjectPrototype (PayloadReducer W (JsObject V) P)}
    (before after : list (PartialPayloadReducerMap W (JsObject V) P))
    (t : string) (effect : OptionalEffect W D P)
    (h : PayloadReducer W (JsObject V) P)
    (initialState : JsObject V) (state : ReduxState (JsObject V))
    (d : D) (w : W) :
  Forall (fun m => own m !! t = None) after →
  (a ← call (action t effect) d;
   handleActionsAppend (before ++ handle (action t effect) h :: after)
     initialState state a) w
  = (p ← or_id effect d;
     partial ← h (default initialState state) p;
     mret (object_literal (own partial ∪ own (default initialState state)))) w.
Proof.
  intros Hafter.
  assert (∀ p, handleActionsAppend
                 (before ++ handle (action t effect) h :: after)
                 initialState state (mkAction t p)
               = (partial ← h (default initialState state) p;
                  mret (objectAssign empty_object
                          [default initialState state; partial]))) as Hrun.
  { intros p. unfold handleActionsAppend.
    apply (createReducerAppend_own _ _ _ (mkAction t p) h). simpl.
    apply own_combined_last; [apply lookup_singleton_eq|done]. }
  simpl. unfold mbind, JS_bind, bind.
  destruct (or_id effect d w) as [p w'|e w']; [|done].
  simpl. rewrite Hrun. unfold mbind, JS_bind, bind.
  destruct (h (default initialState state) p w') as [partial w''|e w'']; [|done].
  by rewrite objectAssign_state.
Qed.

(** X5 at the merge law's handler, associated with the creator of ["set b"]. *)
Lemma X5_created_action_reaches_its_append_handler_witness :
  let setB := action (W := unit) (D := Z) "set b" effect_undefined in
  let h := @Scenario.setB unit Scenario.no_prototype in
  let s := @object_literal Z Scenario.no_prototype (<["a" := 1%Z]> {["b" := 2%Z]}) in
  Forall (fun m : PartialPayloadReducerMap unit (JsObject Z) Z =>
            own m !! "set b" = None) []
  ∧ (a ← call setB 9%Z;
     handleActionsAppend (H := Scenario.no_prototype) (H0 := Scenario.no_prototype)
       ([] ++ handle (H := Scenario.no_prototype) setB h :: [])
       s (Some s) a) ()
    = Normal (@object_literal Z Scenario.no_prototype
                (<["a" := 1%Z]> {["b" := 9%Z]})) ().
Proof.
  intros setB h s. split; [constructor|].
  etrans.
  - apply (X5_created_action_reaches_its_append_handler unit Z Z Z
             (H := Scenario.no_prototype) (H0 := Scenario.no_prototype)
             [] [] "set b" effect_undefined h s (Some s) 9%Z ()).
    constructor.
  - reflexivity.
Defined.

(** X6.  [handleActions] and [handleActionsAppend] look at the own entries
    of the mappings only.  For an action whose type is an own key of none of
    them (in particular when the list of mappings is empty) and is not the
    name of a member of [Object.prototype], both return the state they were
    given, the initial state for [undefined], even where a mapping inherits
    a member of that name. *)
Theorem X6_composites_ignore_absent_types (W S V P : Type) `{ObjectPrototype V}
    `{ObjectPrototype (PayloadReducer W S P)}
    `{ObjectPrototype (PartialPayloadReducer W (JsObject V) P)}
    (ms : list (PayloadReducerMap W S P)) (initialState : S)
    (state : ReduxState S)
    (msAppend : list (PartialPayloadReducerMap W (JsObject V) P))
    (initialObject : JsObject V) (object : ReduxState (JsObject V))
    (action : Action P) :
  (Forall (fun m => own m !! type action = None) ms →
   (Object_prototype : gmap string (Member (PayloadReducer W S P)))
     !! type action = None →
   handleActions ms initialState state action
   = mret (default initialState state))
  ∧ (Forall (fun m => own m !! type action = None) msAppend →
     (Object_prototype
       : gmap string (Member (PartialPayloadReducer W (JsObject V) P)))
       !! type action = None →
     handleActionsAppend msAppend initialObject object action
     = mret (default initialObject object)).
Proof.
  split; intros Hms Hproto.
  - unfold handleActions. apply createReducer_absent.
    by apply has_property_combined_none.
  - unfold handleActionsAppend. apply createReducerAppend_absent.
    by apply has_property_combined_none.
Qed.

(** X6 at a mapping that inherits a handler for ["inc"] without having it,
    under [handleActions] with the one-member prototype. *)
Lemma X6_composites_ignore_absent_types_witness :
  let m : PayloadReducerMap unit Scenario.value Z :=
    mkObject {["reset" := Scenario.reset]} {["inc" := Callable Scenario.reset]} in
  Forall (fun m' : PayloadReducerMap unit Scenario.value Z =>
            own m' !! "inc" = None) [m]
  ∧ (Scenario.toString_prototype
      : gmap string (Member (PayloadReducer unit Scenario.value Z))) !! "inc"
    = None
  ∧ handleActions (H := Scenario.toString_prototype) [m] (Scenario.VNumber 0)
      (Some (Scenario.VNumber 5)) (mkAction "inc" 1%Z)
    = mret (Scenario.VNumber 5).
Proof.
  intros m.
  assert (Forall (fun m' : PayloadReducerMap unit Scenario.value Z =>
                    own m' !! "inc" = None) [m]) as Hms.
  { repeat constructor. }
  split; [exact Hms|]. split; [reflexivity|].
  apply (proj1 (X6_composites_ignore_absent_types unit Scenario.value Z Z
                  (H := Scenario.no_prototype)
                  (H0 := Scenario.toString_prototype)
                  (H1 := Scenario.no_prototype)
                  [m] (Scenario.VNumber 0) (Some (Scenario.VNumber 5))
                  [] (@object_literal _ Scenario.no_prototype ∅) None
                  (mkAction "inc" 1%Z))); [exact Hms|reflexivity].
Defined.

(** ** The lifecycle group *)

Lemma append_empty_r (s : string) : s +:+ "" = s.
Proof.
  induction s as [|c s IH]; [done|].
  change (String c (s +:+ "") = String c s). by rewrite IH.
Qed.

Lemma append_suffix_ne (s a b : string) : a ≠ b → s +:+ a ≠ s +:+ b.
Proof. intros Hne Heq. by apply (inj (String.app s)) in Heq. Qed.

Lemma append_suffix_ne_self (s a : string) : a ≠ "" → s +:+ a ≠ s.
Proof.
  intros Hne Heq. rewrite <- (append_empty_r s) in Heq at 2.
  by apply (inj (String.app s)) in Heq.
Qed.

(** X7.  The three creators of [asyncAction(type, effects)] have pairwise
    different types, none of which is [type] itself, whatever [type] is: the
    three phases never share a handler, nor one with the action of the bare
    name. *)
Theorem X7_lifecycle_types_are_distinct (W D1 D2 D3 P1 P2 P3 : Type)
    (type : string) (effects : OptionalEffects W D1 D2 D3 P1 P2 P3) :
  let x := asyncAction type effects in
  toString (start x) () ≠ toString (success x) ()
  ∧ toString (start x) () ≠ toString (fail x) ()
  ∧ toString (success x) () ≠ toString (fail x) ()
  ∧ toString (start x) () ≠ type
  ∧ toString (success x) () ≠ type
  ∧ toString (fail x) () ≠ type.
Proof.
  intros x. simpl.
  repeat split;
    first [by apply append_suffix_ne | by apply append_suffix_ne_self].
Qed.

(** X8.  A reducer assembled by [handleActions] from one [handle] per phase
    of a lifecycle group sends the action of each phase to the handler of
    that phase: calling [x.start], [x.success] or [x.fail] and dispatching
    the action runs the handler associated with that creator on the payload
    its effect made. *)
Theorem X8_lifecycle_actions_reach_their_handlers (W D1 D2 D3 S P : Type)
    `{ObjectPrototype (PayloadReducer W S P)}
    (type : string) (effects : OptionalEffects W D1 D2 D3 P P P)
    (onStart onSuccess onFail : PayloadReducer W S P)
    (initialState : S) (state : ReduxState S)
    (d1 : D1) (d2 : D2) (d3 : D3) (w : W) :
  let x := asyncAction type effects in
  let given := or_empty effects in
  let reducer :=
    handleActions
      [handle (start x) onStart; handle (success x) onSuccess;
       handle (fail x) onFail] initialState in
  (a ← call (start x) d1; reducer state a) w
  = (p ← or_id (effects.start given) d1;
     onStart (default initialState state) p) w
  ∧ (a ← call (success x) d2; reducer state a) w
    = (p ← or_id (effects.success given) d2;
       onSuccess (default initialState state) p) w
  ∧ (a ← call (fail x) d3; reducer state a) w
    = (p ← or_id (effects.fail given) d3;
       onFail (default initialState state) p) w.
Proof.
  intros x given reducer.
  set (mStart := handle (start x) onStart).
  set (mSuccess := handle (success x) onSuccess).
  set (mFail := handle (fail x) onFail).
  assert (∀ p, reducer state (mkAction (type +:+ ":start") p)
               = onStart (default initialState state) p) as HrunStart.
  { intros p. apply createReducer_own. simpl Actionz.type.
    apply (own_combined_last _ [] mStart [mSuccess; mFail]).
    - apply lookup_singleton_eq.
    - repeat constructor; simpl; apply lookup_singleton_ne;
        by apply append_suffix_ne. }
  assert (∀ p, reducer state (mkAction (type +:+ ":success") p)
               = onSuccess (default initialState state) p) as HrunSuccess.
  { intros p. apply createReducer_own. simpl Actionz.type.
    apply (own_combined_last _ [mStart] mSuccess [mFail]).
    - apply lookup_singleton_eq.
    - repeat constructor; simpl; apply lookup_singleton_ne;
        by apply append_suffix_ne. }
  assert (∀ p, reducer state (mkAction (type +:+ ":fail") p)
               = onFail (default initialState state) p) as HrunFail.
  { intros p. apply createReducer_own. simpl Actionz.type.
    apply (own_combined_last _ [mStart; mSuccess] mFail []).
    - apply lookup_singleton_eq.
    - constructor. }
  subst given. split; [|split]; simpl; unfold mbind, JS_bind, bind.
  - destruct (or_id (effects.start (or_empty effects)) d1 w) as [p w'|e w']; [|done].
    simpl. by rewrite HrunStart.
  - destruct (or_id (effects.success (or_empty effects)) d2 w) as [p w'|e w']; [|done].
    simpl. by rewrite HrunSuccess.
  - destruct (or_id (effects.fail (or_empty effects)) d3 w) as [p w'|e w']; [|done].
    simpl. by rewrite HrunFail.
Qed.

(** ** The append strategy over time *)
Section AppendInvariants.
Context {W V P : Type} `{ObjectPrototype V}.
Implicit Types (reducerMap : PartialPayloadReducerMap W (JsObject V) P)
  (s : JsObject V) (action : Action P)
  (reducer : PartialPayloadReducer W (JsObject V) P).

Lemma createReducerAppend_step_keys reducerMap initialState s action w next w' :
  createReducerAppend reducerMap initialState (Some s) action w = Normal next w' →
  keys s ⊆ keys next.
Proof.
  unfold createReducerAppend; cbv zeta.
  change (default initialState (Some s)) with s.
  destruct (has_property (type action) reducerMap).
  - unfold mbind, JS_bind, bind.
    destruct (invoke (get reducerMap (type action)) s (payload action) w)
      as [partial w1|e w1]; cbv beta iota; [|done].
    rewrite objectAssign_state. intros [= <- _].
    unfold keys. simpl. rewrite dom_union_L. apply union_subseteq_r.
  - by intros [= <- _].
Qed.

Lemma dispatchAll_append_keys reducerMap initialState actions s w final w' :
  dispatchAll (createReducerAppend reducerMap initialState) (Some s) actions w
  = Normal final w' →
  ∃ s', final = Some s' ∧ keys s ⊆ keys s'.
Proof.
  revert s w. induction actions as [|action rest IH]; intros s w; simpl.
  - intros [= <- _]. by exists s.
  - unfold mbind, JS_bind, bind.
    destruct (createReducerAppend reducerMap initialState (Some s) action w)
      as [next w1|e w1] eqn:Hstep; [|done].
    intros Hrest. destruct (IH _ _ Hrest) as (s' & -> & Hsub).
    exists s'. split; [done|].
    etrans; [|exact Hsub]. by eapply createReducerAppend_step_keys.
Qed.

End AppendInvariants.

(** X9.  The append strategy never drops a key.  However many actions are
    dispatched to a reducer of [createReducerAppend], whatever its handlers
    return, every key of the state it started from (of the initial state,
    when it started from [undefined]) is a key of the state it ends in. *)
Theorem X9_append_never_drops_a_key (W V P : Type) `{ObjectPrototype V}
    (reducerMap : PartialPayloadReducerMap W (JsObject V) P)
    (initialState s : JsObject V) (actions : list (Action P))
    (first : Action P) (w w' : W) (final : ReduxState (JsObject V)) :
  (dispatchAll (createReducerAppend reducerMap initialState) (Some s) actions w
   = Normal final w' →
   ∃ s', final = Some s' ∧ keys s ⊆ keys s')
  ∧ (dispatchAll (createReducerAppend reducerMap initialState) None
       (first :: actions) w
     = Normal final w' →
     ∃ s', final = Some s' ∧ keys initialState ⊆ keys s').
Proof.
  split; intros Hrun.
  - by eapply dispatchAll_append_keys.
  - by apply (dispatchAll_append_keys reducerMap initialState (first :: actions)
                initialState w final w').
Qed.

(** X9 at the merge law's reducer: after [set b] with [9] and an unhandled
    action, the keys [a] and [b] are still there. *)
Lemma X9_append_never_drops_a_key_witness :
  let reducerMap :=
    @object_literal (PartialPayloadReducer unit (JsObject Z) Z)
      Scenario.no_prototype
      {["t" := @Scenario.setB unit Scenario.no_prototype]} in
  let s := @object_literal Z Scenario.no_prototype (<["a" := 1%Z]> {["b" := 2%Z]}) in
  let final := @object_literal Z Scenario.no_prototype (<["a" := 1%Z]> {["b" := 9%Z]}) in
  let actions := [mkAction "t" 9%Z; mkAction "dummy" 0%Z] in
  dispatchAll (createReducerAppend (H := Scenario.no_prototype) reducerMap s)
    (Some s) actions ()
  = Normal (Some final) ()
  ∧ ∃ s', Some final = Some s' ∧ keys s ⊆ keys s'.
Proof.
  intros reducerMap s final actions.
  assert (dispatchAll (createReducerAppend (H := Scenario.no_prototype) reducerMap s)
            (Some s) actions ()
          = Normal (Some final) ()) as Hrun by reflexivity.
  split; [exact Hrun|].
  exact (proj1 (X9_append_never_drops_a_key unit Z Z
                  (H := Scenario.no_prototype) reducerMap s s actions
                  (mkAction "t" 9%Z) () () (Some final)) Hrun).
Defined.

(** X10.  The append strategy keeps no prototype.  After a handled action
    the reducer of [createReducerAppend] returns an object literal: its
    prototype is [Object.prototype], whatever the prototypes of the old
    state and of the handler's result were, so a property that the old state
    only inherited (a method of a class instance, say) is no property of the
    new state. *)
Theorem X10_append_result_is_plain_object (W V P : Type) `{ObjectPrototype V}
    (reducerMap : PartialPayloadReducerMap W (JsObject V) P)
    (initialState s partial : JsObject V) (action : Action P)
    (reducer : PartialPayloadReducer W (JsObject V) P) (w w' : W) :
  own reducerMap !! type action = Some reducer →
  reducer s (payload action) w = Normal partial w' →
  ∃ result : JsObject V,
    createReducerAppend reducerMap initialState (Some s) action w
    = Normal result w'
    ∧ inherited result = Object_prototype
    ∧ (∀ key,
         own s !! key = None →
         own partial !! key = None →
         (Object_prototype : gmap string (Member V)) !! key = None →
         has_property key result = false).
Proof.
  intros Hown Hpartial.
  exists (object_literal (own partial ∪ own s)). split; [|split].
  - rewrite (createReducerAppend_own _ _ _ _ _ Hown). simpl default.
    rewrite (bind_normal _ _ _ _ _ Hpartial), mret_normal.
    by rewrite objectAssign_state.
  - done.
  - intros key Hs Hp Hproto. apply has_property_false. split; [|done].
    simpl. by rewrite lookup_union, Hs, Hp.
Qed.

(** X10 at a state that inherits a property ["describe"], and the merge
    law's handler: the new state does not have it. *)
Lemma X10_append_result_is_plain_object_witness :
  let reducerMap :=
    @object_literal (PartialPayloadReducer unit (JsObject Z) Z)
      Scenario.no_prototype
      {["t" := @Scenario.setB unit Scenario.no_prototype]} in
  let s :=
    mkObject ({["a" := 1%Z]} : gmap string Z)
      ({["describe" := NotCallable]} : gmap string (Member Z)) in
  let partial := @object_literal Z Scenario.no_prototype {["b" := 9%Z]} in
  own reducerMap !! "t" = Some (@Scenario.setB unit Scenario.no_prototype)
  ∧ @Scenario.setB unit Scenario.no_prototype s 9%Z () = Normal partial ()
  ∧ has_property "describe" s = true
  ∧ ∃ result : JsObject Z,
      createReducerAppend (H := Scenario.no_prototype) reducerMap s (Some s)
        (mkAction "t" 9%Z) ()
      = Normal result ()
      ∧ inherited result = (Scenario.no_prototype : gmap string (Member Z))
      ∧ has_property "describe" result = false.
Proof.
  intros reducerMap s partial.
  split; [reflexivity|]. split; [reflexivity|]. split; [reflexivity|].
  destruct (X10_append_result_is_plain_object unit Z Z
              (H := Scenario.no_prototype) reducerMap s s partial
              (mkAction "t" 9%Z)
              (@Scenario.setB unit Scenario.no_prototype) () ()
              eq_refl eq_refl) as (result & Hrun & Hplain & Hlost).
  exists result. split; [exact Hrun|]. split; [exact Hplain|].
  apply Hlost; reflexivity.
Defined.

(** X11.  An exception of a handler is the reducer's: where the handler of
    the action's type throws, the reducers of [createReducer] and of
    [createReducerAppend] throw the same exception in the world the handler
    left; the append strategy builds no state then. *)
Theorem X11_handler_exception_propagates (W S V P : Type) `{ObjectPrototype V}
    (reducerMap : PayloadReducerMap W S P) (initialState : S)
    (state : ReduxState S) (reducer : PayloadReducer W S P)
    (appendMap : PartialPayloadReducerMap W (JsObject V) P)
    (initialObject : JsObject V) (object : ReduxState (JsObject V))
    (appendReducer : PartialPayloadReducer W (JsObject V) P)
    (action : Action P) (e : string) (w w' : W) :
  (own reducerMap !! type action = Some reducer →
   reducer (default initialState state) (payload action) w = Throw e w' →
   createReducer reducerMap initialState state action w = Throw e w')
  ∧ (own appendMap !! type action = Some appendReducer →
     appendReducer (default initialObject object) (payload action) w
     = Throw e w' →
     createReducerAppend appendMap initialObject object action w = Throw e w').
Proof.
  split; intros Hown Hthrow.
  - by rewrite (createReducer_own _ _ _ _ _ Hown).
  - rewrite (createReducerAppend_own _ _ _ _ _ Hown).
    by rewrite (bind_throw _ _ _ _ _ Hthrow).
Qed.

(** X11 at an append handler that always throws. *)
Lemma X11_handler_exception_propagates_witness :
  let failing : PartialPayloadReducer unit (JsObject Z) Z :=
    fun _ _ => throw "boom" in
  let appendMap :=
    @object_literal (PartialPayloadReducer unit (JsObject Z) Z)
      Scenario.no_prototype {["t" := failing]} in
  let s := @object_literal Z Scenario.no_prototype {["a" := 1%Z]} in
  own appendMap !! "t" = Some failing
  ∧ failing s 0%Z () = Throw "boom" ()
  ∧ createReducerAppend (H := Scenario.no_prototype) appendMap s (Some s)
      (mkAction "t" 0%Z) ()
    = Throw "boom" ().
Proof.
  intros failing appendMap s.
  split; [reflexivity|]. split; [reflexivity|].
  apply (proj2 (X11_handler_exception_propagates unit Z Z Z
                  (H := Scenario.no_prototype)
                  (@Scenario.counterMap unit Scenario.no_prototype) 0%Z None
                  Scenario.inc appendMap s (Some s) failing
                  (mkAction "t" 0%Z) "boom" () ())); reflexivity.
Defined.

(** ** How the constructors compose *)
Section Copying.
Context {W V P : Type} `{ObjectPrototype V}.
Implicit Types (reducerMap : PartialPayloadReducerMap W (JsObject V) P)
  (key : string).

Lemma own_copying reducerMap key :
  own (copying reducerMap) !! key = spread <$> own reducerMap !! key.
Proof. unfold copying. simpl. apply lookup_fmap. Qed.

Lemma has_property_copying reducerMap key :
  has_property key (copying reducerMap) = has_property key reducerMap.
Proof.
  unfold has_property. rewrite own_copying. simpl. f_equal.
  apply bool_decide_ext, fmap_is_Some.
Qed.

End Copying.

(** X12.  The append strategy is the full-replace strategy with the copy
    written into the handlers.  For every action whose type is an own key of
    the mapping, or no property of it at all (the test [type in reducerMap]
    says what the own keys say), the reducer of [createReducerAppend] for
    the mapping does what the reducer of [createReducer] does for the
    mapping with every own handler [h] replaced by
    [(state, payload) => objectAssign({}, state, h(state, payload))]. *)
Theorem X12_append_is_replace_with_copying_handlers (W V P : Type)
    `{ObjectPrototype V}
    (reducerMap : PartialPayloadReducerMap W (JsObject V) P)
    (initialState : JsObject V) (state : ReduxState (JsObject V))
    (action : Action P) :
  has_property (type action) reducerMap
  = bool_decide (is_Some (own reducerMap !! type action)) →
  createReducerAppend reducerMap initialState state action
  = createReducer (copying reducerMap) initialState state action.
Proof.
  intros Hin.
  destruct (own reducerMap !! type action) as [h|] eqn:Hown.
  - rewrite (createReducerAppend_own _ _ _ _ _ Hown).
    rewrite (createReducer_own _ _ _ _ (spread h)); [done|].
    by rewrite own_copying, Hown.
  - assert (has_property (type action) reducerMap = false) as Hno.
    { rewrite Hin. apply bool_decide_eq_false. by intros [? [=]]. }
    rewrite (createReducerAppend_absent _ _ _ _ Hno).
    rewrite createReducer_absent; [done|].
    by rewrite has_property_copying.
Qed.

(** X12 at the merge law's mapping, in a table that inherits a function
    under the name [toString], for the action it handles. *)
Lemma X12_append_is_replace_with_copying_handlers_witness :
  let reducerMap : PartialPayloadReducerMap unit (JsObject Z) Z :=
    mkObject {["t" := @Scenario.setB unit Scenario.no_prototype]}
      {["toString" := Callable (@Scenario.setB unit Scenario.no_prototype)]} in
  let s := @object_literal Z Scenario.no_prototype (<["a" := 1%Z]> {["b" := 2%Z]}) in
  has_property "t" reducerMap = bool_decide (is_Some (own reducerMap !! "t"))
  ∧ createReducerAppend (H := Scenario.no_prototype) reducerMap s (Some s)
      (mkAction "t" 9%Z)
    = createReducer (copying (H := Scenario.no_prototype) reducerMap) s (Some s)
        (mkAction "t" 9%Z).
Proof.
  intros reducerMap s. split; [reflexivity|].
  apply (X12_append_is_replace_with_copying_handlers unit Z Z
           (H := Scenario.no_prototype) reducerMap s (Some s)
           (mkAction "t" 9%Z)).
  reflexivity.
Defined.

Section Order.
Context {A : Type}.
Implicit Types (ms : list (JsObject A)).

Lemma distinct_keys_combined ms ms' :
  ms ≡ₚ ms' →
  distinct_keys ms →
  distinct_keys ms'
  ∧ foldr (fun m later => later ∪ own m) ∅ ms
    = foldr (fun m later => later ∪ own m) ∅ ms'.
Proof.
  induction 1 as [|x l l' Hperm IH|x y l|l1 l2 l3 _ IH1 _ IH2]; simpl.
  - done.
  - intros [Hx Hl]. destruct (IH Hl) as [Hl' Heq].
    split; [split; [by rewrite <- Hperm|done]|]. by rewrite Heq.
  - intros [[Hyx Hy]%Forall_cons [Hx Hl]].
    split; [split; [constructor; [by symmetry|done]|done]|].
    rewrite <- !(assoc_L (∪)). f_equal. by apply map_union_comm.
  - intros Hl1. destruct (IH1 Hl1) as [Hl2 Heq12].
    destruct (IH2 Hl2) as [Hl3 Heq23]. split; [done|]. by rewrite Heq12.
Qed.

End Order.

(** X13.  Where no two mappings have a key in common, the order in which
    they are given to [handleActions] does not matter: any rearrangement of
    the list combines to the same mapping and gives the same reducer. *)
Theorem X13_order_of_disjoint_mappings_is_irrelevant (W S P : Type)
    `{ObjectPrototype (PayloadReducer W S P)}
    (ms ms' : list (PayloadReducerMap W S P)) (initialState : S) :
  distinct_keys ms →
  ms ≡ₚ ms' →
  objectAssign empty_object ms = objectAssign empty_object ms'
  ∧ handleActions ms initialState = handleActions ms' initialState.
Proof.
  intros Hdistinct Hperm.
  assert (objectAssign empty_object ms = objectAssign empty_object ms') as Heq.
  { rewrite !objectAssign_combine. unfold combineHandlerMappings. f_equal.
    by apply distinct_keys_combined. }
  split; [done|]. unfold handleActions. by rewrite Heq.
Qed.

(** X13 at the two handlers of the README's counter, given in either
    order. *)
Lemma X13_order_of_disjoint_mappings_is_irrelevant_witness :
  let mInc :=
    @object_literal (PayloadReducer unit Z Z) Scenario.no_prototype
      {["inc" := Scenario.inc]} in
  let mDec :=
    @object_literal (PayloadReducer unit Z Z) Scenario.no_prototype
      {["dec" := Scenario.dec]} in
  distinct_keys [mInc; mDec]
  ∧ [mInc; mDec] ≡ₚ [mDec; mInc]
  ∧ handleActions (H := Scenario.no_prototype) [mInc; mDec] 0%Z
    = handleActions (H := Scenario.no_prototype) [mDec; mInc] 0%Z.
Proof.
  intros mInc mDec.
  assert (distinct_keys [mInc; mDec]) as Hdistinct.
  { simpl. repeat split; repeat constructor.
    apply map_disjoint_singleton_l. reflexivity. }
  assert ([mInc; mDec] ≡ₚ [mDec; mInc]) as Hperm by constructor.
  split; [exact Hdistinct|]. split; [exact Hperm|].
  exact (proj2 (X13_order_of_disjoint_mappings_is_irrelevant unit Z Z
                  (H := Scenario.no_prototype) [mInc; mDec] [mDec; mInc] 0%Z
                  Hdistinct Hperm)).
Defined.

(** X14.  For one mapping that is a plain object (an object literal, the
    result of [handle]), [handleActions([m], initialState)] is
    [createReducer(m, initialState)]. *)
Theorem X14_single_mapping_composite_is_constructor (W S P : Type)
    `{ObjectPrototype (PayloadReducer W S P)}
    (m : PayloadReducerMap W S P) (initialState : S) :
  inherited m = Object_prototype →
  handleActions [m] initialState = createReducer m initialState.
Proof.
  intros Hplain. unfold handleActions. f_equal.
  apply JsObject_eq; simpl; [|done].
  by rewrite (right_id_L ∅ (∪)).
Qed.

(** X14 at the README's counter mapping. *)
Lemma X14_single_mapping_composite_is_constructor_witness :
  let m := @Scenario.counterMap unit Scenario.no_prototype in
  inherited m
  = (Scenario.no_prototype : gmap string (Member (PayloadReducer unit Z Z)))
  ∧ handleActions (H := Scenario.no_prototype) [m] 0%Z = createReducer m 0%Z.
Proof.
  intros m. split; [reflexivity|].
  apply (X14_single_mapping_composite_is_constructor unit Z Z
           (H := Scenario.no_prototype) m 0%Z).
  reflexivity.
Defined.

Section ComputedKeys.
Context {W D S P : Type} `{ObjectPrototype (PayloadReducer W S P)}.
Implicit Types
  (entries : list (ActionCreator W D P * PayloadReducer W S P))
  (props : gmap string (PayloadReducer W S P)).

Lemma own_objectAssign_handles (target : PayloadReducerMap W S P) entries :
  own (objectAssign target ((fun entry => handle entry.1 entry.2) <$> entries))
  = foldl (fun props entry => <[toString entry.1 () := entry.2]> props)
      (own target) entries.
Proof.
  revert target. induction entries as [|[c h] entries IH]; intros target; [done|].
  simpl. rewrite IH. simpl. by rewrite insert_union_singleton_l.
Qed.

End ComputedKeys.

(** X15.  The two ways of writing a reducer agree.  The mapping that
    [handleActions] combines from [handle(c1, h1), ..., handle(cn, hn)] is
    the object literal [{ [c1]: h1, ..., [cn]: hn }] that the JavaScript
    example passes to [createReducer], its keys taken from the creators in
    order; so both give the same reducer. *)
Theorem X15_handle_list_is_computed_key_literal (W D S P : Type)
    `{ObjectPrototype (PayloadReducer W S P)}
    (entries : list (ActionCreator W D P * PayloadReducer W S P))
    (initialState : S) :
  let literal :=
    object_literal
      (foldl (fun props entry => <[toString entry.1 () := entry.2]> props)
         ∅ entries) in
  objectAssign empty_object ((fun entry => handle entry.1 entry.2) <$> entries)
  = literal
  ∧ handleActions ((fun entry => handle entry.1 entry.2) <$> entries) initialState
    = createReducer literal initialState.
Proof.
  intros literal.
  assert (objectAssign empty_object
            ((fun entry => handle entry.1 entry.2) <$> entries) = literal) as Heq.
  { apply JsObject_eq.
    - by rewrite own_objectAssign_handles.
    - by rewrite inherited_objectAssign. }
  split; [done|]. unfold handleActions. by rewrite Heq.
Qed.
